(** * ros2_get_filepath_from_package.py: a path resolver for launch files

    The script [assets/scripts/ros2_get_filepath_from_package.py] receives
    the process arguments, checks whether [args[1]] is an existing regular
    file, and prints either [args[1]] itself or the path that
    [ros2launch.api.get_share_file_path_from_package] finds for the package
    [args[1]] and the file name [args[2]].

    The script is embedded as a tree of the effects it performs (a file
    test, the delegated lookup, a [print]) with Python's exceptions as an
    outcome; an interpreter runs the tree against a world (a filesystem and
    the behaviour of the external lookup) and records every effect in a
    trace.  The properties below are about what this interpreter returns. *)

From Stdlib Require Import String List Bool Arith Lia.
From ExtLib Require Import Structures.Monad.
Import ListNotations.
Import MonadNotation.
Local Open Scope string_scope.
Local Open Scope monad_scope.

Set Implicit Arguments.

(** ** The host runtime *)

Module Resolver.

Section Runtime.

(** The exceptions of [ros2launch.api] and of what it calls
    ([PackageNotFoundError], [FileNotFoundError], ...) are not this
    script's: their type is left open. *)
Variable ExtExn : Type.

(** What the script can raise: [args[i]] out of range, or whatever the
    lookup raised. *)
Inductive exn : Type :=
| IndexError
| LookupRaised (e : ExtExn).

(** A computation of the script: a result, a raised exception, or one of
    the three effects followed by the rest of the computation. *)
Inductive Prog (A : Type) : Type :=
| Ret (a : A)
| Raise (e : exn)
| IsFile (path : string) (k : bool -> Prog A)
| GetShare (package_name file_name : string) (k : string -> Prog A)
| Print (obj end_ : string) (k : unit -> Prog A).

Arguments Raise {A} e.

Fixpoint and_then {A B : Type} (c : Prog A) (f : A -> Prog B) : Prog B :=
  match c with
  | Ret a => f a
  | Raise e => Raise e
  | IsFile p k => IsFile p (fun b => and_then (k b) f)
  | GetShare pkg fl k => GetShare pkg fl (fun r => and_then (k r) f)
  | Print o e k => Print o e (fun u => and_then (k u) f)
  end.

#[global] Instance Monad_Prog : Monad Prog :=
  {| ret := @Ret; bind := @and_then |}.

(** [os.path.isfile(path)]: a query, it raises nothing on a string (the
    errors of the underlying [stat] are answered [False]). *)
Definition isfile (path : string) : Prog bool :=
  IsFile path (fun b => Ret b).

(** [get_share_file_path_from_package(package_name=.., file_name=..)]: it
    returns a string, as [ros2launch.api] declares, or raises. *)
Definition get_share_file_path_from_package
    (package_name file_name : string) : Prog string :=
  GetShare package_name file_name (fun r => Ret r).

(** [print(obj, end=end_)] of a string: standard output takes every
    string. *)
Definition print (obj end_ : string) : Prog unit :=
  Print obj end_ (fun u => Ret u).

(** [args[i]] on a list, for a non-negative literal [i]: the element, or
    [IndexError] when the list is too short. *)
Definition getitem (args : list string) (i : nat) : Prog string :=
  match nth_error args i with
  | Some x => Ret x
  | None => Raise IndexError
  end.

(** *** The world a run meets *)

(** What a path resolves to, symbolic links followed. *)
Inductive FileKind : Type :=
| Regular
| Directory
| Special.

Record World : Type := {
  fs : string -> option FileKind;
  share_file : string -> string -> ExtExn + string
}.

(** The answer of [os.path.isfile]: true for an existing regular file
    only. *)
Definition is_regular (W : World) (path : string) : bool :=
  match fs W path with
  | Some Regular => true
  | _ => false
  end.

(** *** Traces and outcomes *)

Inductive event : Type :=
| EvIsFile (path : string) (answer : bool)
| EvShare (package_name file_name : string) (answer : ExtExn + string)
| EvPrint (obj end_ : string).

Inductive outcome (A : Type) : Type :=
| Returned (a : A)
| Uncaught (e : exn).

Arguments Uncaught {A} e.

(** The interpreter.  An exception raised by the lookup ends the run with
    that exception: the script has no [try]. *)
Fixpoint run {A : Type} (W : World) (c : Prog A) : list event * outcome A :=
  match c with
  | Ret a => ([], Returned a)
  | Raise e => ([], Uncaught e)
  | IsFile p k =>
      let b := is_regular W p in
      let (t, o) := run W (k b) in (EvIsFile p b :: t, o)
  | GetShare pkg fl k =>
      match share_file W pkg fl with
      | inl e => ([EvShare pkg fl (inl e)], Uncaught (LookupRaised e))
      | inr r => let (t, o) := run W (k r) in (EvShare pkg fl (inr r) :: t, o)
      end
  | Print o e k =>
      let (t, o') := run W (k tt) in (EvPrint o e :: t, o')
  end.

(** What a trace leaves on standard output: [print] writes the object and
    then [end]. *)
Fixpoint written (t : list event) : string :=
  match t with
  | [] => ""
  | EvPrint o e :: t' => o ++ e ++ written t'
  | _ :: t' => written t'
  end.

(** The [print] calls of a trace, and the lookups of a trace. *)
Fixpoint prints (t : list event) : list (string * string) :=
  match t with
  | [] => []
  | EvPrint o e :: t' => (o, e) :: prints t'
  | _ :: t' => prints t'
  end.

Fixpoint lookups (t : list event) : list (string * string) :=
  match t with
  | [] => []
  | EvShare pkg fl _ :: t' => (pkg, fl) :: lookups t'
  | _ :: t' => lookups t'
  end.

(** ** The script *)

(** Lines 6 to 10 of [main]: the mode, a string. *)
Definition decide_mode (args : list string) : Prog string :=
  let mode := "single file" in
  a1 <- getitem args 1 ;;
  b <- isfile a1 ;;
  if negb b then
    let mode := "pkg file" in ret mode
  else ret mode.

(** [main]: the mode, then one of the two [print] statements.  In the
    second the arguments of the lookup are evaluated left to right before
    the call, and the call before [print]. *)
Definition main (args : list string) : Prog unit :=
  mode <- decide_mode args ;;
  if mode =? "single file" then
    a1 <- getitem args 1 ;;
    print a1 ""
  else
    a1 <- getitem args 1 ;;
    a2 <- getitem args 2 ;;
    r <- get_share_file_path_from_package a1 a2 ;;
    print r "".

(** *** The process: [main(sys.argv)] under [__main__] *)

Record Process : Type := {
  trace : list event;
  stdout : string;
  uncaught : option exn;
  exit_status : nat
}.

(** An exception nobody catches ends the interpreter with status 1; a
    normal end gives status 0. *)
Definition script (W : World) (argv : list string) : Process :=
  let (t, o) := run W (main argv) in
  {| trace := t;
     stdout := written t;
     uncaught := match o with Returned _ => None | Uncaught e => Some e end;
     exit_status := match o with Returned _ => 0 | Uncaught _ => 1 end |}.

(** The mode [main] settles on, observed by running lines 6 to 10. *)
Definition mode_taken (W : World) (args : list string) : outcome string :=
  snd (run W (decide_mode args)).

(** *** The resolver as the specification words it

    Section 4.1 of the specification, step by step: single-file mode when
    [args[1]] is an existing regular file, with [args[1]] as the result;
    pkg-file mode otherwise, with the value of the lookup as the result;
    no result when an argument is missing or the lookup fails.  It is only
    compared with [main], never used to define it. *)
Definition spec_resolve (W : World) (args : list string) : option string :=
  match nth_error args 1 with
  | None => None
  | Some arg1 =>
      if is_regular W arg1 then Some arg1
      else match nth_error args 2 with
           | None => None
           | Some arg2 =>
               match share_file W arg1 arg2 with
               | inr path => Some path
               | inl _ => None
               end
           end
  end.

(** *** The ways a run can go

    By what [args] holds, what the file test answers and what the lookup
    does. *)
Inductive run_case (W : World) (args : list string) : Prop :=
| NoArg1 (H1 : nth_error args 1 = None)
| SingleFile (p : string) (H1 : nth_error args 1 = Some p)
    (Hf : is_regular W p = true)
| PkgNoArg2 (p : string) (H1 : nth_error args 1 = Some p)
    (Hf : is_regular W p = false) (H2 : nth_error args 2 = None)
| PkgFound (p f v : string) (H1 : nth_error args 1 = Some p)
    (Hf : is_regular W p = false) (H2 : nth_error args 2 = Some f)
    (Hv : share_file W p f = inr v)
| PkgRaised (p f : string) (e : ExtExn) (H1 : nth_error args 1 = Some p)
    (Hf : is_regular W p = false) (H2 : nth_error args 2 = Some f)
    (He : share_file W p f = inl e).

End Runtime.

Arguments Raise {ExtExn A} e.
Arguments Uncaught {ExtExn A} e.
Arguments Returned {ExtExn A} a.
Arguments IndexError {ExtExn}.
Arguments EvIsFile {ExtExn} path answer.
Arguments EvPrint {ExtExn} obj end_.
Arguments getitem {ExtExn} args i.
Arguments isfile {ExtExn} path.
Arguments print {ExtExn} obj end_.
Arguments get_share_file_path_from_package {ExtExn} package_name file_name.
Arguments decide_mode {ExtExn} args.
Arguments main {ExtExn} args.

(** ** A workspace to run the script in

    One regular file, two directories (one is the source tree of a package,
    named as the package, in the working directory), one device; one
    installed package.  The lookup's exceptions are their messages. *)

Definition ws_fs (path : string) : option FileKind :=
  if path =? "/tmp/existing_file.txt" then Some Regular
  else if path =? "/tmp" then Some Directory
  else if path =? "my_package" then Some Directory
  else if path =? "/dev/null" then Some Special
  else None.

Definition ws_share_file (package_name file_name : string) : string + string :=
  if package_name =? "my_package"
  then inr ("/opt/ros/ws/share/my_package/" ++ file_name)
  else inl ("PackageNotFoundError: " ++ package_name).

Definition ws : World string :=
  {| fs := ws_fs; share_file := ws_share_file |}.

(** A second workspace: the same files, another install prefix. *)
Definition ws' : World string :=
  {| fs := ws_fs;
     share_file := fun package_name file_name =>
       inr ("/home/dev/install/share/" ++ package_name ++ "/" ++ file_name) |}.

(** The three scenarios of the specification's section 8. *)
Example scenario_existing_file :
  script ws ["prog"; "/tmp/existing_file.txt"]
  = {| trace := [EvIsFile "/tmp/existing_file.txt" true;
                 EvPrint "/tmp/existing_file.txt" ""];
       stdout := "/tmp/existing_file.txt";
       uncaught := None;
       exit_status := 0 |}.
Proof. reflexivity. Qed.

Example scenario_package_file :
  script ws ["prog"; "my_package"; "launch/robot.launch"]
  = {| trace := [EvIsFile "my_package" false;
                 EvShare "my_package" "launch/robot.launch"
                   (inr "/opt/ros/ws/share/my_package/launch/robot.launch");
                 EvPrint "/opt/ros/ws/share/my_package/launch/robot.launch" ""];
       stdout := "/opt/ros/ws/share/my_package/launch/robot.launch";
       uncaught := None;
       exit_status := 0 |}.
Proof. reflexivity. Qed.

Example scenario_unknown_package :
  script ws ["prog"; "nonexistent_pkg"; "missing.xml"]
  = {| trace := [EvIsFile "nonexistent_pkg" false;
                 EvShare "nonexistent_pkg" "missing.xml"
                   (inl "PackageNotFoundError: nonexistent_pkg")];
       stdout := "";
       uncaught := Some (LookupRaised "PackageNotFoundError: nonexistent_pkg");
       exit_status := 1 |}.
Proof. reflexivity. Qed.

(** ** How [main] runs, case by case *)

Section Runs.

Variable ExtExn : Type.
Variable W : World ExtExn.
Variable args : list string.

Lemma append_empty_r (s : string) : s ++ "" = s.
Proof. induction s as [|c s IH]; simpl; [reflexivity | now rewrite IH]. Qed.

Lemma is_regular_true (p : string) :
  is_regular W p = true <-> fs W p = Some Regular.
Proof.
  unfold is_regular. destruct (fs W p) as [[]|]; split; congruence.
Qed.

Lemma is_regular_false (p : string) :
  is_regular W p = false <-> fs W p <> Some Regular.
Proof.
  unfold is_regular. destruct (fs W p) as [[]|]; split; congruence.
Qed.

(** No [args[1]]: the subscript inside [os.path.isfile(...)] raises. *)
Lemma run_no_arg1 :
  nth_error args 1 = None ->
  run W (main args) = ([], Uncaught IndexError).
Proof.
  intros H1. unfold main, decide_mode, getitem. rewrite H1. reflexivity.
Qed.

Lemma run_decide_mode (p : string) :
  nth_error args 1 = Some p ->
  run W (decide_mode args)
  = ([EvIsFile p (is_regular W p)],
     Returned (if is_regular W p then "single file" else "pkg file")).
Proof.
  intros H1. unfold decide_mode, getitem. rewrite H1. cbn.
  destruct (is_regular W p); reflexivity.
Qed.

Lemma run_single_file (p : string) :
  nth_error args 1 = Some p ->
  is_regular W p = true ->
  run W (main args) = ([EvIsFile p true; EvPrint p ""], Returned tt).
Proof.
  intros H1 Hf. unfold main, decide_mode, getitem. rewrite H1. cbn.
  rewrite Hf. reflexivity.
Qed.

Lemma run_pkg_no_arg2 (p : string) :
  nth_error args 1 = Some p ->
  is_regular W p = false ->
  nth_error args 2 = None ->
  run W (main args) = ([EvIsFile p false], Uncaught IndexError).
Proof.
  intros H1 Hf H2. unfold main, decide_mode, getitem. rewrite H1, H2. cbn.
  rewrite Hf. reflexivity.
Qed.

Lemma run_pkg_found (p f v : string) :
  nth_error args 1 = Some p ->
  is_regular W p = false ->
  nth_error args 2 = Some f ->
  share_file W p f = inr v ->
  run W (main args)
  = ([EvIsFile p false; EvShare p f (inr v); EvPrint v ""],
     Returned tt).
Proof.
  intros H1 Hf H2 Hv. unfold main, decide_mode, getitem. rewrite H1, H2. cbn.
  rewrite Hf. cbn. rewrite Hv. reflexivity.
Qed.

Lemma run_pkg_raised (p f : string) (e : ExtExn) :
  nth_error args 1 = Some p ->
  is_regular W p = false ->
  nth_error args 2 = Some f ->
  share_file W p f = inl e ->
  run W (main args)
  = ([EvIsFile p false; EvShare p f (inl e)], Uncaught (LookupRaised e)).
Proof.
  intros H1 Hf H2 He. unfold main, decide_mode, getitem. rewrite H1, H2. cbn.
  rewrite Hf. cbn. rewrite He. reflexivity.
Qed.

Lemma script_of_run (t : list (event ExtExn)) (o : outcome ExtExn unit) :
  run W (main args) = (t, o) ->
  script W args
  = {| trace := t;
       stdout := written t;
       uncaught := match o with Returned _ => None | Uncaught e => Some e end;
       exit_status := match o with Returned _ => 0 | Uncaught _ => 1 end |}.
Proof. intros H. unfold script. rewrite H. reflexivity. Qed.

(** The five ways a run can go, as whole processes. *)
Lemma script_no_arg1 :
  nth_error args 1 = None ->
  script W args
  = {| trace := []; stdout := ""; uncaught := Some IndexError; exit_status := 1 |}.
Proof. intros H. now rewrite (script_of_run (run_no_arg1 H)). Qed.

Lemma script_single_file (p : string) :
  nth_error args 1 = Some p ->
  is_regular W p = true ->
  script W args
  = {| trace := [EvIsFile p true; EvPrint p ""];
       stdout := p; uncaught := None; exit_status := 0 |}.
Proof.
  intros H1 Hf. rewrite (script_of_run (run_single_file H1 Hf)).
  simpl. now rewrite append_empty_r.
Qed.

Lemma script_pkg_no_arg2 (p : string) :
  nth_error args 1 = Some p ->
  is_regular W p = false ->
  nth_error args 2 = None ->
  script W args
  = {| trace := [EvIsFile p false];
       stdout := ""; uncaught := Some IndexError; exit_status := 1 |}.
Proof.
  intros H1 Hf H2. now rewrite (script_of_run (run_pkg_no_arg2 H1 Hf H2)).
Qed.

Lemma script_pkg_found (p f v : string) :
  nth_error args 1 = Some p ->
  is_regular W p = false ->
  nth_error args 2 = Some f ->
  share_file W p f = inr v ->
  script W args
  = {| trace := [EvIsFile p false; EvShare p f (inr v); EvPrint v ""];
       stdout := v; uncaught := None; exit_status := 0 |}.
Proof.
  intros H1 Hf H2 Hv. rewrite (script_of_run (run_pkg_found H1 Hf H2 Hv)).
  simpl. now rewrite append_empty_r.
Qed.

Lemma script_pkg_raised (p f : string) (e : ExtExn) :
  nth_error args 1 = Some p ->
  is_regular W p = false ->
  nth_error args 2 = Some f ->
  share_file W p f = inl e ->
  script W args
  = {| trace := [EvIsFile p false; EvShare p f (inl e)];
       stdout := ""; uncaught := Some (LookupRaised e); exit_status := 1 |}.
Proof.
  intros H1 Hf H2 He. now rewrite (script_of_run (run_pkg_raised H1 Hf H2 He)).
Qed.

(** Every run is one of the five. *)
Lemma run_cases : run_case W args.
Proof.
  destruct (nth_error args 1) as [p|] eqn:H1; [|now apply NoArg1].
  destruct (is_regular W p) eqn:Hf; [eapply SingleFile; eassumption|].
  destruct (nth_error args 2) as [f|] eqn:H2; [|eapply PkgNoArg2; eassumption].
  destruct (share_file W p f) as [e|v] eqn:Hv.
  - eapply PkgRaised; eassumption.
  - eapply PkgFound; eassumption.
Qed.

End Runs.

(** Split a goal about [script W args] along the five runs, replacing the
    process by its value in each. *)
Ltac by_run_cases W args :=
  let H1 := fresh "H1" in
  let Hf := fresh "Hf" in
  let H2 := fresh "H2" in
  let Hv := fresh "Hv" in
  destruct (run_cases W args)
    as [H1 | ? H1 Hf | ? H1 Hf H2 | ? ? ? H1 Hf H2 Hv | ? ? ? H1 Hf H2 Hv];
  [ rewrite (@script_no_arg1 _ W args H1)
  | rewrite (@script_single_file _ W args _ H1 Hf)
  | rewrite (@script_pkg_no_arg2 _ W args _ H1 Hf H2)
  | rewrite (@script_pkg_found _ W args _ _ _ H1 Hf H2 Hv)
  | rewrite (@script_pkg_raised _ W args _ _ _ H1 Hf H2 Hv) ].

(** ** Properties of the script *)

Section Claims.

Variable ExtExn : Type.
Implicit Types (W : World ExtExn) (args : list string).

(** C1.  When [args[1]] names an existing regular file, the script takes
    single-file mode and writes exactly [args[1]] to standard output: one
    [print] of that string, and the run ends normally. *)
Theorem single_file_identity W args (p : string) :
  nth_error args 1 = Some p ->
  fs W p = Some Regular ->
  mode_taken W args = Returned "single file"
  /\ stdout (script W args) = p
  /\ prints (trace (script W args)) = [(p, "")]
  /\ uncaught (script W args) = None.
Proof.
  intros H1 Hreg. apply is_regular_true in Hreg.
  unfold mode_taken. rewrite (run_decide_mode W args H1), Hreg.
  rewrite (script_single_file W args H1 Hreg). simpl. repeat split.
Qed.

(** C2.  When [args[2]] is present (the list has at least three elements)
    and [args[1]] is not an existing regular file (nothing there, a
    directory, or another kind of entry), the script takes pkg-file mode
    and writes exactly the value the lookup returns for
    [(args[1], args[2])]; the lookup is called with these two strings. *)
Theorem pkg_file_writes_lookup_value W args (pkg fl v : string) :
  3 <= length args ->
  nth_error args 1 = Some pkg ->
  nth_error args 2 = Some fl ->
  fs W pkg <> Some Regular ->
  share_file W pkg fl = inr v ->
  mode_taken W args = Returned "pkg file"
  /\ stdout (script W args) = v
  /\ prints (trace (script W args)) = [(v, "")]
  /\ lookups (trace (script W args)) = [(pkg, fl)].
Proof.
  intros _ H1 H2 Hreg Hv. apply is_regular_false in Hreg.
  unfold mode_taken. rewrite (run_decide_mode W args H1), Hreg.
  rewrite (script_pkg_found W args H1 Hreg H2 Hv). simpl. repeat split.
Qed.

(** C3.  With exactly two elements, [args[1]] not an existing regular
    file, the run ends with an uncaught [IndexError] and exit status 1. *)
Theorem missing_file_name_raises W args (p : string) :
  length args = 2 ->
  nth_error args 1 = Some p ->
  fs W p <> Some Regular ->
  uncaught (script W args) = Some IndexError
  /\ exit_status (script W args) = 1.
Proof.
  intros Hlen H1 Hreg. apply is_regular_false in Hreg.
  assert (H2 : nth_error args 2 = None) by (apply nth_error_None; lia).
  rewrite (script_pkg_no_arg2 W args H1 Hreg H2). simpl. split; reflexivity.
Qed.

(** C4.  With the program name alone, the run ends with an uncaught
    [IndexError] and exit status 1; nothing is written, and no effect at
    all is performed before the error. *)
Theorem missing_arguments_raise W args :
  length args = 1 ->
  uncaught (script W args) = Some IndexError
  /\ exit_status (script W args) = 1
  /\ stdout (script W args) = ""
  /\ trace (script W args) = [].
Proof.
  intros Hlen.
  assert (H1 : nth_error args 1 = None) by (apply nth_error_None; lia).
  rewrite (script_no_arg1 W args H1). simpl. repeat split.
Qed.

(** C5.  In pkg-file mode with [args[1]] and [args[2]] present: an
    exception of the lookup is the run's uncaught exception, as raised;
    the run fails exactly when the lookup fails; the lookup is called once
    (no retry) and a failed run writes nothing (no fallback). *)
Theorem lookup_error_propagates W args (pkg fl : string) :
  nth_error args 1 = Some pkg ->
  nth_error args 2 = Some fl ->
  fs W pkg <> Some Regular ->
  (forall e, share_file W pkg fl = inl e ->
     uncaught (script W args) = Some (LookupRaised e)
     /\ stdout (script W args) = "")
  /\ (uncaught (script W args) <> None <->
      exists e, share_file W pkg fl = inl e)
  /\ lookups (trace (script W args)) = [(pkg, fl)].
Proof.
  intros H1 H2 Hreg. apply is_regular_false in Hreg.
  destruct (share_file W pkg fl) as [e|v] eqn:Hv.
  - rewrite (script_pkg_raised W args H1 Hreg H2 Hv). simpl.
    split; [|split]; [| |reflexivity].
    + intros e' He'. split; [congruence | reflexivity].
    + split; [intros _; now exists e | intros _; discriminate].
  - rewrite (script_pkg_found W args H1 Hreg H2 Hv). simpl.
    split; [|split]; [| |reflexivity].
    + intros e He. discriminate.
    + split; [intros Hn; now contradiction Hn | intros [e He]; discriminate].
Qed.

(** C6.  On every run, what reaches standard output is the resolved path
    and nothing else: the only [print] has the path as its object and the
    empty string as its [end], so no newline follows it; a run that
    resolves nothing prints nothing. *)
Theorem output_is_the_resolved_path W args :
  prints (trace (script W args))
  = match spec_resolve W args with
    | Some path => [(path, "")]
    | None => []
    end
  /\ stdout (script W args)
     = match spec_resolve W args with
       | Some path => path
       | None => ""
       end.
Proof.
  unfold spec_resolve.
  destruct (run_cases W args)
    as [H1 | p H1 Hf | p H1 Hf H2 | p f v H1 Hf H2 Hv | p f e H1 Hf H2 Hv];
    rewrite H1; try rewrite Hf; try rewrite H2; try rewrite Hv.
  - rewrite (script_no_arg1 W args H1). split; reflexivity.
  - rewrite (script_single_file W args H1 Hf). split; reflexivity.
  - rewrite (script_pkg_no_arg2 W args H1 Hf H2). split; reflexivity.
  - rewrite (script_pkg_found W args H1 Hf H2 Hv). split; reflexivity.
  - rewrite (script_pkg_raised W args H1 Hf H2 Hv). split; reflexivity.
Qed.

(** Two runs that agree on [args[1]], on the file test of [args[1]] and,
    when that test fails, on [args[2]] and on what the lookup does for the
    pair, are the same process. *)
Lemma script_agree W W' args args' :
  nth_error args 1 = nth_error args' 1 ->
  (forall p, nth_error args 1 = Some p -> is_regular W p = is_regular W' p) ->
  (forall p, nth_error args 1 = Some p -> is_regular W p = false ->
     nth_error args 2 = nth_error args' 2
     /\ forall f, nth_error args 2 = Some f ->
          share_file W p f = share_file W' p f) ->
  script W args = script W' args'.
Proof.
  intros E1 Efile Epkg.
  destruct (run_cases W args)
    as [H1 | p H1 Hf | p H1 Hf H2 | p f v H1 Hf H2 Hv | p f e H1 Hf H2 Hv].
  - rewrite (script_no_arg1 W args H1). rewrite E1 in H1.
    now rewrite (script_no_arg1 W' args' H1).
  - rewrite (script_single_file W args H1 Hf).
    rewrite (Efile p H1) in Hf. rewrite E1 in H1.
    now rewrite (script_single_file W' args' H1 Hf).
  - rewrite (script_pkg_no_arg2 W args H1 Hf H2).
    destruct (Epkg p H1 Hf) as [E2 _].
    rewrite (Efile p H1) in Hf. rewrite E1 in H1. rewrite E2 in H2.
    now rewrite (script_pkg_no_arg2 W' args' H1 Hf H2).
  - rewrite (script_pkg_found W args H1 Hf H2 Hv).
    destruct (Epkg p H1 Hf) as [E2 Ev]. rewrite (Ev f H2) in Hv.
    rewrite (Efile p H1) in Hf. rewrite E1 in H1. rewrite E2 in H2.
    now rewrite (script_pkg_found W' args' H1 Hf H2 Hv).
  - rewrite (script_pkg_raised W args H1 Hf H2 Hv).
    destruct (Epkg p H1 Hf) as [E2 Ev]. rewrite (Ev f H2) in Hv.
    rewrite (Efile p H1) in Hf. rewrite E1 in H1. rewrite E2 in H2.
    now rewrite (script_pkg_raised W' args' H1 Hf H2 Hv).
Qed.

(** C7.  The whole process (trace, output, exception, status) depends
    only on what the script consumes.  (a) In one world, argument lists
    that agree at indices 1 and 2 give the same process, whatever
    [args[0]] and the elements past index 2 are.  (b) In single-file mode
    agreement at index 1 is enough: [args[2]] is not read.  (c) Two worlds
    that answer the file test of [args[1]] alike and, when the answer is
    no, whose lookups agree on [(args[1], args[2])] give the same
    process. *)
Theorem output_depends_on_consumed_inputs :
  (forall W args args',
      nth_error args 1 = nth_error args' 1 ->
      nth_error args 2 = nth_error args' 2 ->
      script W args = script W args')
  /\ (forall W args args' (p : string),
        nth_error args 1 = Some p ->
        nth_error args' 1 = Some p ->
        fs W p = Some Regular ->
        script W args = script W args')
  /\ (forall W W' args,
        (forall p, nth_error args 1 = Some p ->
           is_regular W p = is_regular W' p) ->
        (forall p f, nth_error args 1 = Some p -> is_regular W p = false ->
           nth_error args 2 = Some f ->
           share_file W p f = share_file W' p f) ->
        script W args = script W' args).
Proof.
  split; [|split].
  - intros W args args' E1 E2. apply script_agree; auto.
  - intros W args args' p H1 H1' Hreg. apply is_regular_true in Hreg.
    apply script_agree; [congruence | reflexivity |].
    intros q Hq Hf. congruence.
  - intros W W' args Efile Elookup. apply script_agree; auto.
Qed.

(** C8.  A run that ends normally performed one [print] of one string, and
    this write is its only side effect: before it come the test of
    [args[1]], a query that changes nothing, and in pkg-file mode the one
    call delegated to the lookup; the trace, which records every effect of
    the script, is one of the two lists below. *)
Theorem one_print_and_nothing_else W args :
  uncaught (script W args) = None ->
  exists p out,
    nth_error args 1 = Some p
    /\ prints (trace (script W args)) = [(out, "")]
    /\ stdout (script W args) = out
    /\ (trace (script W args) = [EvIsFile p true; EvPrint out ""]
        \/ exists f,
             trace (script W args)
             = [EvIsFile p false; EvShare p f (inr out); EvPrint out ""]).
Proof.
  destruct (run_cases W args)
    as [H1 | p H1 Hf | p H1 Hf H2 | p f v H1 Hf H2 Hv | p f e H1 Hf H2 Hv].
  - rewrite (script_no_arg1 W args H1). discriminate.
  - rewrite (script_single_file W args H1 Hf). intros _.
    exists p, p. simpl. repeat split; auto.
  - rewrite (script_pkg_no_arg2 W args H1 Hf H2). discriminate.
  - rewrite (script_pkg_found W args H1 Hf H2 Hv). intros _.
    exists p, v. simpl. repeat split; auto. right. now exists f.
  - rewrite (script_pkg_raised W args H1 Hf H2 Hv). discriminate.
Qed.

(** C9.  No run calls the lookup more than once, and a run whose
    [args[1]] is an existing regular file ends normally without calling
    it. *)
Theorem lookup_at_most_once W args :
  length (lookups (trace (script W args))) <= 1
  /\ (forall p, nth_error args 1 = Some p -> fs W p = Some Regular ->
        lookups (trace (script W args)) = []
        /\ uncaught (script W args) = None).
Proof.
  split.
  - by_run_cases W args; simpl; lia.
  - intros p H1 Hreg. apply is_regular_true in Hreg.
    rewrite (script_single_file W args H1 Hreg). simpl. split; reflexivity.
Qed.

(** C10.  In pkg-file mode without [args[2]] the [IndexError] comes from
    evaluating the arguments of the call: the trace holds the file test
    alone, no lookup was entered, and the uncaught exception is the
    script's [IndexError], whatever the lookup would have done. *)
Theorem index_error_before_lookup W args (p : string) :
  nth_error args 1 = Some p ->
  nth_error args 2 = None ->
  fs W p <> Some Regular ->
  trace (script W args) = [EvIsFile p false]
  /\ lookups (trace (script W args)) = []
  /\ uncaught (script W args) = Some IndexError.
Proof.
  intros H1 H2 Hreg. apply is_regular_false in Hreg.
  rewrite (script_pkg_no_arg2 W args H1 Hreg H2). simpl. repeat split.
Qed.

End Claims.

(** ** The properties at work in the workspace *)

Lemma single_file_identity_witness :
  mode_taken ws ["prog"; "/tmp/existing_file.txt"] = Returned "single file"
  /\ stdout (script ws ["prog"; "/tmp/existing_file.txt"])
     = "/tmp/existing_file.txt"
  /\ prints (trace (script ws ["prog"; "/tmp/existing_file.txt"]))
     = [("/tmp/existing_file.txt", "")]
  /\ uncaught (script ws ["prog"; "/tmp/existing_file.txt"]) = None.
Proof.
  apply (@single_file_identity string ws
           ["prog"; "/tmp/existing_file.txt"] "/tmp/existing_file.txt");
    reflexivity.
Defined.

Lemma pkg_file_writes_lookup_value_witness :
  fs ws "my_package" = Some Directory
  /\ (mode_taken ws ["prog"; "my_package"; "launch/robot.launch"]
      = Returned "pkg file"
      /\ stdout (script ws ["prog"; "my_package"; "launch/robot.launch"])
         = "/opt/ros/ws/share/my_package/launch/robot.launch"
      /\ prints (trace (script ws ["prog"; "my_package"; "launch/robot.launch"]))
         = [("/opt/ros/ws/share/my_package/launch/robot.launch", "")]
      /\ lookups (trace (script ws ["prog"; "my_package"; "launch/robot.launch"]))
         = [("my_package", "launch/robot.launch")]).
Proof.
  split; [reflexivity|].
  apply (@pkg_file_writes_lookup_value string ws
           ["prog"; "my_package"; "launch/robot.launch"]
           "my_package" "launch/robot.launch"
           "/opt/ros/ws/share/my_package/launch/robot.launch").
  - simpl. lia.
  - reflexivity.
  - reflexivity.
  - simpl. discriminate.
  - reflexivity.
Defined.

Lemma missing_file_name_raises_witness :
  uncaught (script ws ["prog"; "nonexistent_pkg"]) = Some IndexError
  /\ exit_status (script ws ["prog"; "nonexistent_pkg"]) = 1.
Proof.
  apply (@missing_file_name_raises string ws
           ["prog"; "nonexistent_pkg"] "nonexistent_pkg").
  - reflexivity.
  - reflexivity.
  - simpl. discriminate.
Defined.

Lemma missing_arguments_raise_witness :
  uncaught (script ws ["prog"]) = Some IndexError
  /\ exit_status (script ws ["prog"]) = 1
  /\ stdout (script ws ["prog"]) = ""
  /\ trace (script ws ["prog"]) = [].
Proof.
  apply (@missing_arguments_raise string ws ["prog"]). reflexivity.
Defined.

Lemma lookup_error_propagates_witness :
  uncaught (script ws ["prog"; "nonexistent_pkg"; "missing.xml"])
  = Some (LookupRaised "PackageNotFoundError: nonexistent_pkg")
  /\ stdout (script ws ["prog"; "nonexistent_pkg"; "missing.xml"]) = "".
Proof.
  destruct (@lookup_error_propagates string ws
              ["prog"; "nonexistent_pkg"; "missing.xml"]
              "nonexistent_pkg" "missing.xml") as [Hraise _].
  - reflexivity.
  - reflexivity.
  - simpl. discriminate.
  - apply Hraise. reflexivity.
Defined.

Lemma output_depends_on_consumed_inputs_witness :
  script ws ["prog"; "my_package"; "launch/robot.launch"]
  = script ws ["/usr/bin/python3"; "my_package"; "launch/robot.launch"; "--debug"]
  /\ script ws ["prog"; "/tmp/existing_file.txt"; "a.launch"]
     = script ws ["prog"; "/tmp/existing_file.txt"]
  /\ script ws ["prog"; "/tmp/existing_file.txt"; "a.launch"]
     = script ws' ["prog"; "/tmp/existing_file.txt"; "a.launch"].
Proof.
  destruct (output_depends_on_consumed_inputs string) as [Ha [Hb Hc]].
  split; [|split].
  - apply Ha; reflexivity.
  - apply (Hb ws _ _ "/tmp/existing_file.txt"); reflexivity.
  - apply Hc.
    + intros p _. reflexivity.
    + intros p f H1 Hf _. injection H1 as <-. discriminate Hf.
Defined.

Lemma one_print_and_nothing_else_witness :
  exists p out,
    nth_error ["prog"; "my_package"; "launch/robot.launch"] 1 = Some p
    /\ prints (trace (script ws ["prog"; "my_package"; "launch/robot.launch"]))
       = [(out, "")]
    /\ stdout (script ws ["prog"; "my_package"; "launch/robot.launch"]) = out
    /\ (trace (script ws ["prog"; "my_package"; "launch/robot.launch"])
        = [EvIsFile p true; EvPrint out ""]
        \/ exists f,
             trace (script ws ["prog"; "my_package"; "launch/robot.launch"])
             = [EvIsFile p false; EvShare p f (inr out); EvPrint out ""]).
Proof.
  apply (@one_print_and_nothing_else string ws
           ["prog"; "my_package"; "launch/robot.launch"]).
  reflexivity.
Defined.

Lemma lookup_at_most_once_witness :
  length (lookups (trace (script ws ["prog"; "/tmp/existing_file.txt"]))) <= 1
  /\ lookups (trace (script ws ["prog"; "/tmp/existing_file.txt"])) = []
  /\ uncaught (script ws ["prog"; "/tmp/existing_file.txt"]) = None.
Proof.
  destruct (@lookup_at_most_once string ws ["prog"; "/tmp/existing_file.txt"])
    as [Hle Hnone].
  split; [exact Hle|].
  apply (Hnone "/tmp/existing_file.txt"); reflexivity.
Defined.

Lemma index_error_before_lookup_witness :
  trace (script ws' ["prog"; "/dev/null"]) = [EvIsFile "/dev/null" false]
  /\ lookups (trace (script ws' ["prog"; "/dev/null"])) = []
  /\ uncaught (script ws' ["prog"; "/dev/null"]) = Some IndexError.
Proof.
  apply (@index_error_before_lookup string ws' ["prog"; "/dev/null"] "/dev/null").
  - reflexivity.
  - reflexivity.
  - simpl. discriminate.
Defined.

(** ** Further properties of [main]

    When a run succeeds, which exception ends it otherwise, and what a
    failed run leaves behind, for every argument list, the empty one
    included. *)

Section Outcomes.

Variable ExtExn : Type.
Implicit Types (W : World ExtExn) (args : list string).


(** X2.  The run ends with [IndexError] exactly when the list has fewer
    than two elements (the empty list included), or has exactly two and
    [args[1]] is not an existing regular file.  With three elements or
    more the script never raises [IndexError]. *)
Theorem index_error_iff W args :
  uncaught (script W args) = Some IndexError <->
  length args < 2
  \/ (length args = 2
      /\ exists p, nth_error args 1 = Some p /\ fs W p <> Some Regular).
Proof.
  destruct (run_cases W args)
    as [H1 | p H1 Hf | p H1 Hf H2 | p f v H1 Hf H2 Hv | p f e H1 Hf H2 Hv].
  - rewrite (script_no_arg1 W args H1). cbn [exit_status uncaught]. split; [|reflexivity].
    intros _. left. apply nth_error_None in H1. lia.
  - rewrite (script_single_file W args H1 Hf). cbn [exit_status uncaught]. split; [discriminate|].
    assert (Hlen : 1 < length args) by (apply nth_error_Some; congruence).
    intros [Hlt | [_ [q [Hq Hreg]]]]; [lia|].
    apply is_regular_false in Hreg. congruence.
  - rewrite (script_pkg_no_arg2 W args H1 Hf H2). cbn [exit_status uncaught]. split; [|reflexivity].
    intros _. right.
    assert (Hlen : 1 < length args) by (apply nth_error_Some; congruence).
    apply nth_error_None in H2. split; [lia|].
    exists p. split; [assumption|]. now apply is_regular_false.
  - rewrite (script_pkg_found W args H1 Hf H2 Hv). cbn [exit_status uncaught]. split; [discriminate|].
    assert (Hlen : 2 < length args) by (apply nth_error_Some; congruence).
    intros [Hlt | [Heq _]]; lia.
  - rewrite (script_pkg_raised W args H1 Hf H2 Hv). cbn [exit_status uncaught]. split; [discriminate|].
    assert (Hlen : 2 < length args) by (apply nth_error_Some; congruence).
    intros [Hlt | [Heq _]]; lia.
Qed.

(** X3.  Output and exit status go together: a run either ends normally
    with status 0 after exactly one [print], or ends with an uncaught
    exception and status 1 having printed nothing at all (no partial
    output). *)
Theorem output_iff_success W args :
  (exit_status (script W args) = 0
   /\ uncaught (script W args) = None
   /\ length (prints (trace (script W args))) = 1)
  \/ (exit_status (script W args) = 1
      /\ uncaught (script W args) <> None
      /\ prints (trace (script W args)) = []
      /\ stdout (script W args) = "").
Proof.
  destruct (run_cases W args)
    as [H1 | p H1 Hf | p H1 Hf H2 | p f v H1 Hf H2 Hv | p f e H1 Hf H2 Hv].
  - rewrite (script_no_arg1 W args H1). right. simpl.
    repeat split; discriminate.
  - rewrite (script_single_file W args H1 Hf). left. simpl. repeat split.
  - rewrite (script_pkg_no_arg2 W args H1 Hf H2). right. simpl.
    repeat split; discriminate.
  - rewrite (script_pkg_found W args H1 Hf H2 Hv). left. simpl. repeat split.
  - rewrite (script_pkg_raised W args H1 Hf H2 Hv). right. simpl.
    repeat split; discriminate.
Qed.

(** X4.  A run ends with the lookup's exception [e] exactly when [args[1]]
    and [args[2]] are present, [args[1]] is not an existing regular file,
    and the lookup raises [e] for the pair [(args[1], args[2])], in this
    order: an error of the lookup is never reported for other arguments. *)
Theorem lookup_error_iff W args (e : ExtExn) :
  uncaught (script W args) = Some (LookupRaised e) <->
  exists p f, nth_error args 1 = Some p
    /\ nth_error args 2 = Some f
    /\ fs W p <> Some Regular
    /\ share_file W p f = inl e.
Proof.
  destruct (run_cases W args)
    as [H1 | p H1 Hf | p H1 Hf H2 | p f v H1 Hf H2 Hv | p f e' H1 Hf H2 Hv].
  - rewrite (script_no_arg1 W args H1). cbn [exit_status uncaught]. split; [discriminate|].
    intros [q [g [Hq _]]]. congruence.
  - rewrite (script_single_file W args H1 Hf). cbn [exit_status uncaught]. split; [discriminate|].
    intros [q [g [Hq [_ [Hreg _]]]]]. apply is_regular_false in Hreg. congruence.
  - rewrite (script_pkg_no_arg2 W args H1 Hf H2). cbn [exit_status uncaught]. split; [discriminate|].
    intros [q [g [_ [Hg _]]]]. congruence.
  - rewrite (script_pkg_found W args H1 Hf H2 Hv). cbn [exit_status uncaught]. split; [discriminate|].
    intros [q [g [Hq [Hg [_ He]]]]]. congruence.
  - rewrite (script_pkg_raised W args H1 Hf H2 Hv). cbn [exit_status uncaught]. split.
    + intros He. injection He as <-. exists p, f.
      repeat split; try assumption. now apply is_regular_false.
    + intros [q [g [Hq [Hg [_ He]]]]]. congruence.
Qed.

End Outcomes.

(** The further properties at work in the workspace. *)


Lemma index_error_iff_witness :
  uncaught (script ws []) = Some IndexError
  /\ uncaught (script ws ["prog"; "/tmp"]) = Some IndexError.
Proof.
  split.
  - apply (proj2 (@index_error_iff string ws [])). left. simpl. lia.
  - apply (proj2 (@index_error_iff string ws ["prog"; "/tmp"])). right.
    split; [reflexivity|]. exists "/tmp". split; [reflexivity|].
    simpl. discriminate.
Defined.

Lemma lookup_error_iff_witness :
  uncaught (script ws ["prog"; "nonexistent_pkg"; "missing.xml"])
  = Some (LookupRaised "PackageNotFoundError: nonexistent_pkg").
Proof.
  apply (proj2 (@lookup_error_iff string ws
                  ["prog"; "nonexistent_pkg"; "missing.xml"]
                  "PackageNotFoundError: nonexistent_pkg")).
  exists "nonexistent_pkg", "missing.xml".
  repeat split; try reflexivity. simpl. discriminate.
Defined.

End Resolver.
